(** * TerrierUtil: the LLM inference endpoint ([terrierutil/llm/fastapi/main.py])

    A shallow embedding of the HTTP shim around a causal language model:
    the module-level construction of the application object, the startup
    hook that loads the model pair, the two routes ([POST /generate] and
    [GET /about]) and the translation of failures into the error envelope.

    Scores are 64-bit floats, as in the running program: [numpy.around] is
    modelled on the primitive binary64 numbers, operation by operation. *)

From Stdlib Require Import ZArith QArith Qround Qabs List String Bool Lia Lqa.
From Stdlib Require Import PrimFloat FloatOps SpecFloat.
Import ListNotations.
Open Scope Z_scope.
#[local] Set Warnings "-register-all".
#[local] Set Warnings "-inexact-float".

(** ** Rounding of scores: [numpy.around]

    [numpy.around(a, decimals)] on an array of 64-bit floats multiplies by
    [10**decimals], rounds to the nearest integer with ties going to the
    even neighbour ([rint]) and divides again; for a negative [decimals] it
    divides first and multiplies afterwards; for [decimals = 0] it is
    [rint] alone.  Every step is a binary64 operation, with its rounding. *)
Module Numpy.
Local Open Scope float_scope.

Definition toint : float := 0x1p52.

(** C's [rint] in the default rounding mode: below [2**52] in magnitude,
    adding and subtracting [2**52] leaves the nearest integer, ties to even;
    from [2**52] on every float is an integer; infinities and NaN pass
    through; a zero result keeps the sign of the argument. *)
Definition rint (x : float) : float :=
  if abs x <? toint then
    let y := if get_sign x then (x - toint) + toint else (x + toint) - toint in
    if y =? 0 then (if get_sign x then neg_zero else zero) else y
  else x.

Definition p10 : list float := [1e0; 1e1; 1e2; 1e3; 1e4; 1e5; 1e6; 1e7; 1e8].

Fixpoint times_ten (k : nat) (ret : float) : float :=
  match k with
  | O => ret
  | S k' => times_ten k' (ret * 10)
  end.

(** [power_of_ten(n)] for [0 <= n]: a table up to [1e8], then [1e9]
    multiplied by ten as often as needed. *)
Definition power_of_ten (n : Z) : float :=
  if (n <? 9)%Z then nth (Z.to_nat n) p10 1
  else times_ten (Z.to_nat (n - 9)) 1e9.

Definition around (decimals : Z) (x : float) : float :=
  if (0 <=? decimals)%Z then
    if (decimals =? 0)%Z then rint x
    else rint (x * power_of_ten decimals) / power_of_ten decimals
  else rint (x / power_of_ten (- decimals)) * power_of_ten (- decimals).

End Numpy.

(** ** Rounding to decimal digits, on exact numbers

    What it means for a number to be rounded to a given number of decimal
    digits, stated on rationals: the reference [numpy.around] is compared
    with. *)
Module Decimal.
Local Open Scope Q_scope.

Definition half : Q := 1 # 2.

(** Round to the nearest integer, halfway cases to the even one. *)
Definition rint (x : Q) : Z :=
  let f := Qfloor x in
  match Qcompare (x - inject_Z f) half with
  | Lt => f
  | Gt => (f + 1)%Z
  | Eq => if Z.even f then f else (f + 1)%Z
  end.

Definition power_of_ten (n : Z) : Q := inject_Z (10 ^ n).

(** [x] rounded to [decimals] decimal digits. *)
Definition round (decimals : Z) (x : Q) : Q :=
  if (0 <=? decimals)%Z
  then inject_Z (rint (x * power_of_ten decimals)) / power_of_ten decimals
  else inject_Z (rint (x / power_of_ten (- decimals))) * power_of_ten (- decimals).

(** The distance between two neighbouring values with [decimals] digits. *)
Definition quantum (decimals : Z) : Q :=
  if (0 <=? decimals)%Z then 1 / power_of_ten decimals
  else power_of_ten (- decimals).

(** [r] is [x] rounded to [decimals] decimal digits: [r] is a whole number of
    quanta and no other such number is closer to [x]. *)
Definition rounded_to (decimals : Z) (x r : Q) : Prop :=
  (exists k : Z, r == inject_Z k * quantum decimals) /\
  Qabs (r - x) <= quantum decimals * half.

(** The exact value of a finite float. *)
Definition exact (x : float) : option Q :=
  match Prim2SF x with
  | S754_zero _ => Some 0
  | S754_finite s m e =>
      let n := if s then Z.neg m else Z.pos m in
      Some (if (0 <=? e)%Z then inject_Z (n * 2 ^ e)
            else Qmake n (2 ^ Z.to_pos (- e))%positive)
  | _ => None
  end.

(** The float [returned] stands for the raw score rounded to [decimals]
    decimal digits: read to that many digits, it is the decimal that the
    exact value of [raw] rounds to. *)
Definition rounds_decimally (decimals : Z) (raw returned : float) : Prop :=
  exists xq rq,
    exact raw = Some xq /\ exact returned = Some rq /\
    round decimals rq == round decimals xq.

End Decimal.

(** ** Values exchanged over HTTP *)

(** A JSON document, as the body of a request or of a response.  Objects
    keep their fields in order, the way a Python [dict] literal does.
    [JNum] is a number written out exactly (an integer, a decimal literal),
    [JFloat] a Python [float]. *)
Inductive json : Type :=
| JNull
| JBool (b : bool)
| JNum (q : Q)
| JStr (s : string)
| JArr (items : list json)
| JObj (fields : list (string * json))
| JFloat (f : float).

(** [d.get(key)] on the fields of an object. *)
Fixpoint dict_get (key : string) (fields : list (string * json)) : option json :=
  match fields with
  | [] => None
  | (k, v) :: rest => if String.eqb k key then Some v else dict_get key rest
  end.

(** What [json.dumps(..., allow_nan=False)] accepts: no infinity and no NaN
    anywhere in the document. *)
Fixpoint json_compliant (j : json) : bool :=
  match j with
  | JFloat f => PrimFloat.is_finite f
  | JArr items => forallb json_compliant items
  | JObj fields =>
      forallb (fun kv => match kv with (_, v) => json_compliant v end) fields
  | _ => true
  end.

Inductive payload : Type :=
| Json (j : json)
| PlainText (s : string).

(** What a [JSONResponse] (or any response) carries to the caller. *)
Record response : Type := Response {
  status_code : Z;
  content : payload
}.

Definition HTTP_200_OK : Z := 200.
Definition HTTP_422_UNPROCESSABLE_ENTITY : Z := 422.
Definition HTTP_500_INTERNAL_SERVER_ERROR : Z := 500.

(** The two envelopes of the service. *)
Definition success_envelope (text : list string) (logits : list float) : json :=
  JObj [("error", JBool false);
        ("results", JObj [("text", JArr (map JStr text));
                          ("logits", JArr (map JFloat logits))])]%string.

Definition error_envelope (message : string) : json :=
  JObj [("error", JBool true); ("message", JStr message)]%string.

Definition is_success_envelope (c : payload) : Prop :=
  exists text logits, c = Json (success_envelope text logits).

Definition is_error_envelope (c : payload) : Prop :=
  exists message, c = Json (error_envelope message).

(** The [error] flag of a response body, when it has one. *)
Definition error_flag (c : payload) : option bool :=
  match c with
  | Json (JObj fields) =>
      match dict_get "error" fields with
      | Some (JBool b) => Some b
      | _ => None
      end
  | _ => None
  end.

(** ** Failures *)

(** A raised Python exception: its class name and [str(exc)].  These are
    the ordinary exceptions of the code under the routes (a missing
    attribute, a failure of the inference runtime); the only failure the
    framework answers on its own account, the rejected request body, is kept
    apart as a list of violations. *)
Record py_exception : Type := PyException {
  exc_type : string;
  exc_str : string
}.

(** What rendering a response raises on an infinity or a NaN. *)
Definition not_json_compliant : py_exception :=
  PyException "ValueError" "Out of range float values are not JSON compliant".

(** One violation found while validating a request body. *)
Record violation : Type := Violation {
  loc : string;
  msg : string
}.

(** What an exception handler of the application receives. *)
Inductive raised : Type :=
| ValidationFailure (errors : list violation)
| Uncaught (e : py_exception).

Definition show_violation (v : violation) : string :=
  (loc v ++ ": " ++ msg v)%string.

(** [str(exc)] *)
Definition describe (exc : raised) : string :=
  match exc with
  | ValidationFailure errors => String.concat "; " (map show_violation errors)
  | Uncaught e => exc_str e
  end.

(** ** Observable effects *)

Inductive event : Type :=
| LogInfo (fmt : string) (args : list json)
| LogError (detail : string)
| InitCausalLM (model_name_or_path : string)
| SetPackage
| Predict (prompts : list string) (generation_params : list (string * json))
| Popen (command : string).

Definition is_predict (ev : event) : bool :=
  match ev with Predict _ _ => true | _ => false end.

Definition is_set_package (ev : event) : bool :=
  match ev with SetPackage => true | _ => false end.

(** Number of calls of the inference function recorded in a trace. *)
Definition predict_calls (t : list event) : nat :=
  List.length (filter is_predict t).

(** Number of assignments to [app.package] recorded in a trace. *)
Definition package_writes (t : list event) : nat :=
  List.length (filter is_set_package t).

Definition is_init_causallm (ev : event) : bool :=
  match ev with InitCausalLM _ => true | _ => false end.

Definition is_popen (ev : event) : bool :=
  match ev with Popen _ => true | _ => false end.

(** Number of calls of the model loader recorded in a trace. *)
Definition loader_calls (t : list event) : nat :=
  List.length (filter is_init_causallm t).

(** Number of shell commands recorded in a trace. *)
Definition popen_calls (t : list event) : nat :=
  List.length (filter is_popen t).

(** ** The environment of the process *)

Record environment : Type := {
  (** [os.path.isdir], relative to the working directory *)
  isdir : string -> bool;
  (** standard output of a shell command; [None] when the shell cannot
      find the command *)
  shell : string -> option string;
  sys_version : string;
  torch_version : string;
  cuda_is_available : bool;
  torch_version_cuda : option string;
  cudnn_version : option Z;
  cudnn_enabled : bool
}.

(** [os.popen(command).read()]: the pipe carries standard output only; a
    command the shell cannot find writes its complaint to standard error. *)
Definition popen_read (env : environment) (command : string) : string :=
  match shell env command with
  | Some out => out
  | None => EmptyString
  end.

(** [terrierutil.llm.fastapi.config.CONFIG]: the settings [main.py] reads. *)
Record config : Type := {
  ENV : string;
  DEVICE : string;
  MODEL_NAME_OR_PATH : string;
  ROUND_DIGIT : Z
}.

(** ** The request schema *)

(** [terrierutil.llm.fastapi.schema.InferenceInput] *)
Record InferenceInput : Type := {
  prompt : string;
  generation_params : list (string * json)
}.

Definition check_prompt (fields : list (string * json)) : violation + string :=
  match dict_get "prompt" fields with
  | None => inl (Violation "prompt" "field required")
  | Some (JStr s) => inr s
  | Some _ => inl (Violation "prompt" "str type expected")
  end.

Definition check_generation_params (fields : list (string * json))
  : violation + list (string * json) :=
  match dict_get "generation_params" fields with
  | None => inl (Violation "generation_params" "field required")
  | Some (JObj g) => inr g
  | Some _ => inl (Violation "generation_params" "value is not a valid dict")
  end.

(** Modelled from the spec: the schema module is missing; the spec (4.4, 6)
    gives the request as [{prompt: string, generation_params: object}], the
    prompt required, and has every missing field or type mismatch rejected
    before the route runs. *)
Definition validate_InferenceInput (body : json) : list violation + InferenceInput :=
  match body with
  | JObj fields =>
      match check_prompt fields, check_generation_params fields with
      | inr p, inr g => inr {| prompt := p; generation_params := g |}
      | inl v, inr _ => inl [v]
      | inr _, inl v => inl [v]
      | inl v1, inl v2 => inl [v1; v2]
      end
  | _ => inl [Violation "body" "value is not a valid dict"]
  end.

Definition repr_InferenceInput (input : InferenceInput) : json :=
  JObj [("prompt", JStr (prompt input));
        ("generation_params", JObj (generation_params input))]%string.

(** The [prompt] field of a request body, if the body has one. *)
Definition prompt_field (body : json) : option json :=
  match body with
  | JObj fields => dict_get "prompt" fields
  | _ => None
  end.

(** A well-formed request: a non-empty string prompt and object-shaped
    generation parameters. *)
Definition well_formed (body : json) : bool :=
  match body with
  | JObj fields =>
      match dict_get "prompt" fields, dict_get "generation_params" fields with
      | Some (JStr p), Some (JObj _) => negb (String.eqb p EmptyString)
      | _, _ => false
      end
  | _ => false
  end.

(** ** The error translator *)

(** An exception handler: what it logs and the response it returns. *)
Definition exception_handler : Type := raised -> list event * response.

(** Modelled from the spec: the exception_handler module is missing; the
    spec (4.6) has a request-validation failure answered with status 422 and
    the error envelope, the message derived from the violation. *)
Definition validation_exception_handler : exception_handler :=
  fun exc =>
    ([], Response HTTP_422_UNPROCESSABLE_ENTITY (Json (error_envelope (describe exc)))).

(** Modelled from the spec: the exception_handler module is missing; the
    spec (4.6) has any other uncaught failure answered with status 500 and
    the error envelope, the message derived from the description of the
    failure, the full detail logged and not returned. *)
Definition python_exception_handler : exception_handler :=
  fun exc =>
    ([LogError (describe exc)],
     Response HTTP_500_INTERNAL_SERVER_ERROR (Json (error_envelope (describe exc)))).

(** The classes a handler is registered for. *)
Inductive exc_class : Type :=
| RequestValidationError
| Exception.

Definition exc_class_eqb (c1 c2 : exc_class) : bool :=
  match c1, c2 with
  | RequestValidationError, RequestValidationError => true
  | Exception, Exception => true
  | _, _ => false
  end.

Fixpoint lookup_handler (c : exc_class) (hs : list (exc_class * exception_handler))
  : option exception_handler :=
  match hs with
  | [] => None
  | (c', h) :: rest => if exc_class_eqb c' c then Some h else lookup_handler c rest
  end.

(** What the framework answers when the application registers no handler. *)
Definition default_response (c : exc_class) (exc : raised) : response :=
  match c with
  | RequestValidationError =>
      Response HTTP_422_UNPROCESSABLE_ENTITY
               (Json (JObj [("detail"%string, JStr (describe exc))]))
  | Exception =>
      Response HTTP_500_INTERNAL_SERVER_ERROR (PlainText "Internal Server Error")
  end.

Inductive middleware : Type :=
| CORSMiddleware (allow_origins : list string).

(** [StaticFiles(directory=...)]: the constructor checks the directory. *)
Record StaticFiles_t : Type := { directory : string }.

Definition StaticFiles (env : environment) (dir : string)
  : py_exception + StaticFiles_t :=
  if isdir env dir then inr {| directory := dir |}
  else inl (PyException "RuntimeError"
              ("Directory '" ++ dir ++ "' does not exist")%string).

(** ** Test doubles

    Stand-ins for the collaborators, used to run the model on concrete
    requests: a configuration with two digits, a loader that succeeds and one
    that fails, an inference function that fails on the prompt ["boom"] (and
    returns a score on a decimal tie for ["tie"], a very large one for
    ["huge"]), and two environments (one with the static directory, one without; neither
    has [nvidia-smi]). *)
Module Stub.

Definition CONFIG : config :=
  {| ENV := "dev"; DEVICE := "cpu"; MODEL_NAME_OR_PATH := "llama-7b";
     ROUND_DIGIT := 2 |}.

Definition init_causallm (path : string) : py_exception + (unit * unit) :=
  inr (tt, tt).

Definition faulty_init_causallm (path : string) : py_exception + (unit * unit) :=
  inl (PyException "OSError" (path ++ " is not a local folder")%string).

Definition out_of_memory : py_exception :=
  PyException "RuntimeError" "CUDA out of memory".

Definition predict {P : Type} (package : P) (prompts : list string)
  (generation_params : list (string * json))
  : py_exception + (list string * list float) :=
  match prompts with
  | [p] =>
      if String.eqb p "boom" then inl out_of_memory
      else if String.eqb p "tie" then
        inr ([(p ++ " world")%string], [0.20500000000000002]%float)
      else if String.eqb p "huge" then
        inr ([(p ++ " world")%string], [1e308]%float)
      else inr ([(p ++ " world")%string], [0.123456; 2.675]%float)
  | _ => inr ([], [])
  end.

Definition env : environment :=
  {| isdir := String.eqb "static/";
     shell := fun _ => None;
     sys_version := "3.10.12";
     torch_version := "2.0.1";
     cuda_is_available := false;
     torch_version_cuda := None;
     cudnn_version := None;
     cudnn_enabled := true |}.

Definition bare_env : environment :=
  {| isdir := fun _ => false;
     shell := fun _ => None;
     sys_version := "3.10.12";
     torch_version := "2.0.1";
     cuda_is_available := false;
     torch_version_cuda := None;
     cudnn_version := None;
     cudnn_enabled := true |}.

Definition gpu_env : environment :=
  {| isdir := String.eqb "static/";
     shell := fun command =>
                if String.eqb command "nvidia-smi" then Some "GPU 0: A100"%string
                else None;
     sys_version := "3.10.12";
     torch_version := "2.0.1";
     cuda_is_available := true;
     torch_version_cuda := Some "11.8"%string;
     cudnn_version := Some 8700;
     cudnn_enabled := true |}.

Definition good_body : json :=
  JObj [("prompt", JStr "hello"); ("generation_params", JObj [])]%string.

Definition tie_body : json :=
  JObj [("prompt", JStr "tie"); ("generation_params", JObj [])]%string.

Definition huge_body : json :=
  JObj [("prompt", JStr "huge"); ("generation_params", JObj [])]%string.

Definition boom_body : json :=
  JObj [("prompt", JStr "boom"); ("generation_params", JObj [])]%string.

Definition numeric_prompt_body : json :=
  JObj [("prompt", JNum 5%Q); ("generation_params", JObj [])]%string.

Definition no_prompt_body : json :=
  JObj [("generation_params", JObj [])]%string.

End Stub.

(** ** The application ([main.py]) *)

Section Main.

(** The trained model and its tokenizer are opaque to the shim. *)
Variables Model Tokenizer : Type.

(** [app.package]: the dict with the keys ["model"] and ["tokenizer"]. *)
Record package_t : Type := {
  model : Model;
  tokenizer : Tokenizer
}.

(** The collaborators [main.py] imports. *)
Variable CONFIG : config.
Variable init_causallm : string -> py_exception + (Model * Tokenizer).
Variable predict :
  package_t -> list string -> list (string * json) ->
  py_exception + (list string * list float).
Variable env : environment.

(** The application object: what [FastAPI(...)] is given, what the module
    registers on it, and the [package] attribute the startup hook adds. *)
Record FastAPI : Type := {
  title : string;
  description : string;
  version : string;
  user_middleware : list middleware;
  mounts : list (string * StaticFiles_t);
  exception_handlers : list (exc_class * exception_handler);
  package : option package_t
}.

Definition add_middleware (m : middleware) (a : FastAPI) : FastAPI :=
  {| title := title a; description := description a; version := version a;
     user_middleware := m :: user_middleware a;
     mounts := mounts a;
     exception_handlers := exception_handlers a;
     package := package a |}.

Definition mount (path : string) (files : StaticFiles_t) (a : FastAPI) : FastAPI :=
  {| title := title a; description := description a; version := version a;
     user_middleware := user_middleware a;
     mounts := mounts a ++ [(path, files)];
     exception_handlers := exception_handlers a;
     package := package a |}.

Definition add_exception_handler (c : exc_class) (h : exception_handler)
  (a : FastAPI) : FastAPI :=
  {| title := title a; description := description a; version := version a;
     user_middleware := user_middleware a;
     mounts := mounts a;
     exception_handlers := (c, h) :: exception_handlers a;
     package := package a |}.

Definition set_package (p : package_t) (a : FastAPI) : FastAPI :=
  {| title := title a; description := description a; version := version a;
     user_middleware := user_middleware a;
     mounts := mounts a;
     exception_handlers := exception_handlers a;
     package := Some p |}.

(** *** Code that reads and writes the application object, may raise, and
    leaves a trace *)

Record outcome (A : Type) : Type := Outcome {
  result : py_exception + A;
  app_after : FastAPI;
  trace : list event
}.
Arguments Outcome {A}.
Arguments result {A}.
Arguments app_after {A}.
Arguments trace {A}.

Definition M (A : Type) : Type := FastAPI -> outcome A.

Definition ret {A} (x : A) : M A := fun a => Outcome (inr x) a [].

Definition raise {A} (e : py_exception) : M A := fun a => Outcome (inl e) a [].

Definition bind {A B} (c : M A) (k : A -> M B) : M B :=
  fun a =>
    let o := c a in
    match result o with
    | inl e => Outcome (inl e) (app_after o) (trace o)
    | inr x =>
        let o' := k x (app_after o) in
        Outcome (result o') (app_after o') (trace o ++ trace o')
    end.

(** [try: c  except Exception as e: h e] *)
Definition catch {A} (c : M A) (h : py_exception -> M A) : M A :=
  fun a =>
    let o := c a in
    match result o with
    | inl e =>
        let o' := h e (app_after o) in
        Outcome (result o') (app_after o') (trace o ++ trace o')
    | inr x => o
    end.

Definition emit (ev : event) : M unit := fun a => Outcome (inr tt) a [ev].

Definition lift {A} (r : py_exception + A) : M A :=
  fun a => Outcome r a [].

Notation "x <- c ;; k" := (bind c (fun x => k))
  (at level 100, c at next level, right associativity).
Notation "c ;;; k" := (bind c (fun _ => k))
  (at level 100, right associativity).

Definition logger_info (fmt : string) (args : list json) : M unit :=
  emit (LogInfo fmt args).

Definition no_package : py_exception :=
  PyException "AttributeError" "'FastAPI' object has no attribute 'package'".

(** Reading [app.package]: an attribute that was never set raises. *)
Definition get_package : M package_t :=
  fun a =>
    match package a with
    | Some p => Outcome (inr p) a []
    | None => Outcome (inl no_package) a []
    end.

(** [app.package = p] *)
Definition assign_package (p : package_t) : M unit :=
  fun a => Outcome (inr tt) (set_package p a) [SetPackage].

(** *** Module level: construction of [app] *)

(** What [StaticFiles(directory="static/")] returns when the directory is
    there. *)
Definition static_dir : StaticFiles_t := {| directory := "static/" |}.

Definition module_app (static : StaticFiles_t) : FastAPI :=
  let a := {| title := "LLM API";
              description := "Deployed inference on Llama";
              version := "0.0.1";
              user_middleware := [];
              mounts := [];
              exception_handlers := [];
              package := None |} in
  let a := add_middleware (CORSMiddleware ["*"%string]) a in
  let a := mount "/static" static a in
  let a := add_exception_handler RequestValidationError
             validation_exception_handler a in
  let a := add_exception_handler Exception python_exception_handler a in
  a.

Definition app : py_exception + FastAPI :=
  match StaticFiles env "static/" with
  | inl e => inl e
  | inr static => inr (module_app static)
  end.

(** The handlers [app] ends up with, the last registered first. *)
Definition main_handlers : list (exc_class * exception_handler) :=
  [(Exception, python_exception_handler);
   (RequestValidationError, validation_exception_handler)].


(** The states the application object goes through once the module is
    imported: as built at module level, or with the package assigned. *)
Definition live (a : FastAPI) : Prop :=
  exists a0, app = inr a0 /\ (a = a0 \/ exists p, a = set_package p a0).

(** *** The startup hook *)

Definition startup_event : M unit :=
  logger_info "Running envirnoment: {}" [JStr (ENV CONFIG)] ;;;
  logger_info "PyTorch using device: {}" [JStr (DEVICE CONFIG)] ;;;
  emit (InitCausalLM (MODEL_NAME_OR_PATH CONFIG)) ;;;
  loaded <- lift (init_causallm (MODEL_NAME_OR_PATH CONFIG)) ;;
  assign_package {| model := fst loaded; tokenizer := snd loaded |}.

(** *** [POST /generate] *)

Definition do_predict (body : InferenceInput) : M json :=
  logger_info "API predict called" [] ;;;
  logger_info "input: {}" [repr_InferenceInput body] ;;;
  let prompt := prompt body in
  let generation_params := generation_params body in
  pkg <- get_package ;;
  emit (Predict [prompt] generation_params) ;;;
  out <- lift (predict pkg [prompt] generation_params) ;;
  let text := fst out in
  let logits := map (Numpy.around (ROUND_DIGIT CONFIG)) (snd out) in
  ret (success_envelope text logits).

(** *** [GET /about] *)

Definition bash (command : string) : M string :=
  emit (Popen command) ;;;
  ret (popen_read env command).

Definition json_of_option {A} (f : A -> json) (o : option A) : json :=
  match o with
  | Some x => f x
  | None => JNull
  end.

Definition show_about : M json :=
  smi <- bash "nvidia-smi" ;;
  ret (JObj [("sys.version", JStr (sys_version env));
             ("torch.__version__", JStr (torch_version env));
             ("torch.cuda.is_available()", JBool (cuda_is_available env));
             ("torch.version.cuda", json_of_option JStr (torch_version_cuda env));
             ("torch.backends.cudnn.version()",
                json_of_option (fun v => JNum (inject_Z v)) (cudnn_version env));
             ("torch.backends.cudnn.enabled", JBool (cudnn_enabled env));
             ("nvidia-smi", JStr smi)]%string).

(** *** The framework around the routes *)

(** The application answers a failure with the handler registered for its
    class, or with the default of the framework. *)
Definition respond (c : exc_class) (exc : raised) : M response :=
  fun a =>
    match lookup_handler c (exception_handlers a) with
    | Some h => Outcome (inr (snd (h exc))) a (fst (h exc))
    | None => Outcome (inr (default_response c exc)) a []
    end.

(** The value a route returns becomes a [JSONResponse] with status 200;
    rendering it raises on a float that JSON cannot carry. *)
Definition render (value : json) : M response :=
  if json_compliant value then ret (Response HTTP_200_OK (Json value))
  else raise not_json_compliant.

(** A route: the value it returns is rendered, an exception that escapes
    from the endpoint or from the rendering goes to the handler for
    [Exception].  [do_predict] declares [response_model=InferenceResponse];
    the value it builds already has that shape, so the filter the framework
    applies to it is left out. *)
Definition route (endpoint : M json) : M response :=
  catch (value <- endpoint ;; render value)
        (fun e => respond Exception (Uncaught e)).

(** The body is validated against [InferenceInput] before [do_predict] is
    called. *)
Definition post_generate (body : json) : M response :=
  match validate_InferenceInput body with
  | inl errors => respond RequestValidationError (ValidationFailure errors)
  | inr input => route (do_predict input)
  end.

Definition get_about : M response := route show_about.

Inductive request : Type :=
| POST_generate (body : json)
| GET_about.

Definition handle (r : request) : M response :=
  match r with
  | POST_generate body => post_generate body
  | GET_about => get_about
  end.

(** A request that gets as far as [do_predict]. *)
Definition reaches_do_predict (r : request) : bool :=
  match r with
  | POST_generate body =>
      match validate_InferenceInput body with
      | inr _ => true
      | inl _ => false
      end
  | GET_about => false
  end.

(** Requests are taken one after the other; the routes only read the
    application object, so the order in which the framework interleaves
    them is not modelled. *)
Fixpoint serve (requests : list request) : M (list response) :=
  match requests with
  | [] => ret []
  | r :: rest =>
      x <- handle r ;;
      xs <- serve rest ;;
      ret (x :: xs)
  end.

(** *** What the routes and the hook leave in the log *)

Definition startup_logs : list event :=
  [LogInfo "Running envirnoment: {}" [JStr (ENV CONFIG)];
   LogInfo "PyTorch using device: {}" [JStr (DEVICE CONFIG)];
   InitCausalLM (MODEL_NAME_OR_PATH CONFIG)].

Definition request_logs (input : InferenceInput) : list event :=
  [LogInfo "API predict called" []; LogInfo "input: {}" [repr_InferenceInput input]].

Definition failure_response (e : py_exception) : response :=
  Response HTTP_500_INTERNAL_SERVER_ERROR (Json (error_envelope (exc_str e))).

(** *** The process *)

Inductive phase : Type :=
| ImportFailed (e : py_exception)
| StartupFailed (e : py_exception)
| Crashed (e : py_exception)
| Serving.

Record process : Type := {
  exit : phase;
  responses : list response;
  events : list event;
  state : option FastAPI
}.

(** [uvicorn.run("main:app", ...)]: the module is imported, which builds
    [app]; the startup hook runs; only then are requests accepted.  What the
    server needs of its own before that (the [log.ini] it is told to read,
    the options it is passed, a port it can bind on [host]) is outside the
    model: [main] describes the process from the import on, for a server
    that has come up. *)
Definition main (host : string) (port : Z) (requests : list request) : process :=
  match app with
  | inl e =>
      {| exit := ImportFailed e; responses := []; events := []; state := None |}
  | inr a =>
      let up := startup_event a in
      match result up with
      | inl e =>
          {| exit := StartupFailed e; responses := [];
             events := trace up; state := Some (app_after up) |}
      | inr _ =>
          let run := serve requests (app_after up) in
          match result run with
          | inl e =>
              {| exit := Crashed e; responses := [];
                 events := trace up ++ trace run; state := Some (app_after run) |}
          | inr rs =>
              {| exit := Serving; responses := rs;
                 events := trace up ++ trace run; state := Some (app_after run) |}
          end
      end
  end.

(** ** Properties *)


(** *** Rounding to decimal digits *)

Section Rounding.
Import Decimal.
Local Open Scope Q_scope.

Lemma rint_close (x : Q) : Qabs (inject_Z (rint x) - x) <= half.
Proof.
  unfold rint.
  pose proof (Qfloor_le x) as Hlo.
  pose proof (Qlt_floor x) as Hhi.
  set (f := Qfloor x) in *.
  rewrite inject_Z_plus in Hhi.
  change (inject_Z 1) with 1 in Hhi.
  assert (Hup : inject_Z (f + 1) == inject_Z f + 1)
    by (rewrite inject_Z_plus; reflexivity).
  unfold half.
  destruct (Qcompare (x - inject_Z f) (1 # 2)) eqn:Hc.
  - apply Qeq_alt in Hc.
    destruct (Z.even f); [|rewrite Hup];
      apply Qabs_Qle_condition; split; lra.
  - apply Qlt_alt in Hc. apply Qabs_Qle_condition; split; lra.
  - apply Qgt_alt in Hc. rewrite Hup. apply Qabs_Qle_condition; split; lra.
Qed.

Lemma power_of_ten_pos (n : Z) : (0 <= n)%Z -> 0 < power_of_ten n.
Proof.
  intros Hn. unfold power_of_ten.
  change 0 with (inject_Z 0). rewrite <- Zlt_Qlt.
  apply Z.pow_pos_nonneg; lia.
Qed.

Lemma scaled_close (k : Z) (y s : Q) :
  0 < s -> Qabs (inject_Z k - y) <= half ->
  Qabs (inject_Z k * s - y * s) <= s * half.
Proof.
  intros Hs Hk.
  assert (E : inject_Z k * s - y * s == (inject_Z k - y) * s) by ring.
  rewrite E, Qabs_Qmult, (Qabs_pos s), (Qmult_comm s half)
    by (apply Qlt_le_weak; exact Hs).
  apply Qmult_le_compat_r; [exact Hk | apply Qlt_le_weak; exact Hs].
Qed.

Lemma round_rounded (decimals : Z) (x : Q) :
  rounded_to decimals x (round decimals x).
Proof.
  unfold rounded_to, round, quantum.
  destruct (0 <=? decimals)%Z eqn:Hd.
  - apply Z.leb_le in Hd.
    pose proof (power_of_ten_pos decimals Hd) as HP.
    set (P := power_of_ten decimals) in *.
    assert (HP0 : ~ P == 0) by (intros E; rewrite E in HP; discriminate).
    split.
    + exists (rint (x * P)). field. exact HP0.
    + assert (Hi : 0 < / P) by (apply Qinv_lt_0_compat; exact HP).
      pose proof (scaled_close (rint (x * P)) (x * P) (/ P) Hi
                    (rint_close (x * P))) as H.
      assert (E1 : inject_Z (rint (x * P)) / P - x
                   == inject_Z (rint (x * P)) * / P - x * P * / P)
        by (field; exact HP0).
      assert (E2 : 1 / P == / P) by (field; exact HP0).
      rewrite E1, E2. exact H.
  - apply Z.leb_gt in Hd.
    assert (Hn : (0 <= - decimals)%Z) by lia.
    pose proof (power_of_ten_pos (- decimals) Hn) as HP.
    set (P := power_of_ten (- decimals)) in *.
    assert (HP0 : ~ P == 0) by (intros E; rewrite E in HP; discriminate).
    split.
    + exists (rint (x / P)). reflexivity.
    + pose proof (scaled_close (rint (x / P)) (x / P) P HP
                    (rint_close (x / P))) as H.
      assert (E1 : inject_Z (rint (x / P)) * P - x
                   == inject_Z (rint (x / P)) * P - x / P * P)
        by (field; exact HP0).
      rewrite E1. exact H.
Qed.

Example round_ties_to_even :
  round 0 (5 # 2) == 2 /\ round 0 (7 # 2) == 4 /\ round 1 (-(25 # 100)) == -(2 # 10).
Proof. repeat split; reflexivity. Qed.

Lemma rint_comp (x y : Q) : x == y -> rint x = rint y.
Proof.
  intros H. unfold rint. rewrite (Qfloor_comp x y H).
  assert (E : Qcompare (x - inject_Z (Qfloor y)) half
              = Qcompare (y - inject_Z (Qfloor y)) half)
    by (rewrite H; reflexivity).
  rewrite E. reflexivity.
Qed.

Lemma round_comp (decimals : Z) (x y : Q) :
  x == y -> round decimals x = round decimals y.
Proof.
  intros H. unfold round. destruct (0 <=? decimals)%Z.
  - rewrite (rint_comp (x * power_of_ten decimals) (y * power_of_ten decimals));
      [reflexivity | rewrite H; reflexivity].
  - rewrite (rint_comp (x / power_of_ten (- decimals))
                       (y / power_of_ten (- decimals)));
      [reflexivity | rewrite H; reflexivity].
Qed.

End Rounding.

(** *** The handlers the module registers *)

Lemma app_handlers (a0 : FastAPI) :
  app = inr a0 -> exception_handlers a0 = main_handlers /\ package a0 = None.
Proof.
  unfold app. destruct (StaticFiles env "static/") as [e | static]; [discriminate|].
  intros H. injection H as <-. split; reflexivity.
Qed.

Lemma live_handlers (a : FastAPI) :
  live a -> exception_handlers a = main_handlers.
Proof.
  intros (a0 & Ha0 & [-> | [p ->]]); apply app_handlers in Ha0 as [H _]; exact H.
Qed.

Lemma live_set_package (a : FastAPI) (p : package_t) :
  live a -> live (set_package p a).
Proof.
  intros (a0 & Ha0 & [-> | [q ->]]); exists a0; split; try exact Ha0; right;
    exists p; reflexivity.
Qed.

(** *** What each route computes *)

Lemma post_generate_invalid (a : FastAPI) (body : json) (errors : list violation) :
  exception_handlers a = main_handlers ->
  validate_InferenceInput body = inl errors ->
  post_generate body a =
    Outcome (inr (Response HTTP_422_UNPROCESSABLE_ENTITY
                    (Json (error_envelope (describe (ValidationFailure errors))))))
            a [].
Proof.
  intros Hh Hv. unfold post_generate, respond. rewrite Hv, Hh. reflexivity.
Qed.

Lemma post_generate_unset (a : FastAPI) (body : json) (input : InferenceInput) :
  exception_handlers a = main_handlers ->
  validate_InferenceInput body = inr input ->
  package a = None ->
  post_generate body a =
    Outcome (inr (failure_response no_package)) a
            (request_logs input ++ [LogError (exc_str no_package)]).
Proof.
  intros Hh Hv Hp. unfold post_generate. rewrite Hv.
  unfold route, catch, bind, do_predict, bind, logger_info, emit, get_package,
    respond. cbn. rewrite Hp. cbn. rewrite Hh. reflexivity.
Qed.

Lemma post_generate_failure (a : FastAPI) (body : json) (input : InferenceInput)
  (pkg : package_t) (e : py_exception) :
  exception_handlers a = main_handlers ->
  validate_InferenceInput body = inr input ->
  package a = Some pkg ->
  predict pkg [prompt input] (generation_params input) = inl e ->
  post_generate body a =
    Outcome (inr (failure_response e)) a
            (request_logs input
               ++ [Predict [prompt input] (generation_params input);
                   LogError (exc_str e)]).
Proof.
  intros Hh Hv Hp He. unfold post_generate. rewrite Hv.
  unfold route, catch, bind, do_predict, bind, logger_info, emit, get_package,
    lift, respond. cbn. rewrite Hp. cbn. rewrite He. cbn. rewrite Hh. reflexivity.
Qed.

Lemma strings_compliant (text : list string) :
  forallb json_compliant (map JStr text) = true.
Proof. induction text as [| t rest IH]; [reflexivity | exact IH]. Qed.

Lemma floats_compliant (logits : list float) :
  forallb json_compliant (map JFloat logits) = forallb PrimFloat.is_finite logits.
Proof.
  induction logits as [| x rest IH]; [reflexivity|].
  cbn [map forallb json_compliant]. rewrite IH. reflexivity.
Qed.

Lemma success_envelope_compliant (text : list string) (logits : list float) :
  json_compliant (success_envelope text logits) =
    forallb PrimFloat.is_finite logits.
Proof.
  unfold success_envelope. cbn [json_compliant forallb].
  rewrite strings_compliant, floats_compliant.
  destruct (forallb PrimFloat.is_finite logits); reflexivity.
Qed.

Lemma post_generate_success (a : FastAPI) (body : json) (input : InferenceInput)
  (pkg : package_t) (text : list string) (raw : list float) :
  validate_InferenceInput body = inr input ->
  package a = Some pkg ->
  predict pkg [prompt input] (generation_params input) = inr (text, raw) ->
  forallb PrimFloat.is_finite (map (Numpy.around (ROUND_DIGIT CONFIG)) raw) = true ->
  post_generate body a =
    Outcome (inr (Response HTTP_200_OK
                    (Json (success_envelope text
                             (map (Numpy.around (ROUND_DIGIT CONFIG)) raw)))))
            a
            (request_logs input
               ++ [Predict [prompt input] (generation_params input)]).
Proof.
  intros Hv Hp He Hfin. unfold post_generate. rewrite Hv.
  unfold route, catch, bind, do_predict, bind, logger_info, emit, get_package,
    lift, ret, render. cbn. rewrite Hp. cbn. rewrite He.
  cbn [result app_after trace fst snd].
  rewrite success_envelope_compliant, Hfin. reflexivity.
Qed.

Lemma post_generate_unrenderable (a : FastAPI) (body : json)
  (input : InferenceInput) (pkg : package_t) (text : list string)
  (raw : list float) :
  exception_handlers a = main_handlers ->
  validate_InferenceInput body = inr input ->
  package a = Some pkg ->
  predict pkg [prompt input] (generation_params input) = inr (text, raw) ->
  forallb PrimFloat.is_finite (map (Numpy.around (ROUND_DIGIT CONFIG)) raw) = false ->
  post_generate body a =
    Outcome (inr (failure_response not_json_compliant)) a
            (request_logs input
               ++ [Predict [prompt input] (generation_params input);
                   LogError (exc_str not_json_compliant)]).
Proof.
  intros Hh Hv Hp He Hfin. unfold post_generate. rewrite Hv.
  unfold route, catch, bind, do_predict, bind, logger_info, emit, get_package,
    lift, ret, render, raise, respond. cbn. rewrite Hp. cbn. rewrite He.
  cbn [result app_after trace fst snd].
  rewrite success_envelope_compliant, Hfin. cbn. rewrite Hh. reflexivity.
Qed.

Lemma post_generate_cases (a : FastAPI) (body : json) :
  exception_handlers a = main_handlers ->
  (exists errors,
      validate_InferenceInput body = inl errors /\
      post_generate body a =
        Outcome (inr (Response HTTP_422_UNPROCESSABLE_ENTITY
                        (Json (error_envelope (describe (ValidationFailure errors))))))
                a []) \/
  (exists input,
      validate_InferenceInput body = inr input /\ package a = None /\
      post_generate body a =
        Outcome (inr (failure_response no_package)) a
                (request_logs input ++ [LogError (exc_str no_package)])) \/
  (exists input pkg e,
      validate_InferenceInput body = inr input /\ package a = Some pkg /\
      predict pkg [prompt input] (generation_params input) = inl e /\
      post_generate body a =
        Outcome (inr (failure_response e)) a
                (request_logs input
                   ++ [Predict [prompt input] (generation_params input);
                       LogError (exc_str e)])) \/
  (exists input pkg text raw,
      validate_InferenceInput body = inr input /\ package a = Some pkg /\
      predict pkg [prompt input] (generation_params input) = inr (text, raw) /\
      forallb PrimFloat.is_finite
        (map (Numpy.around (ROUND_DIGIT CONFIG)) raw) = false /\
      post_generate body a =
        Outcome (inr (failure_response not_json_compliant)) a
                (request_logs input
                   ++ [Predict [prompt input] (generation_params input);
                       LogError (exc_str not_json_compliant)])) \/
  (exists input pkg text raw,
      validate_InferenceInput body = inr input /\ package a = Some pkg /\
      predict pkg [prompt input] (generation_params input) = inr (text, raw) /\
      forallb PrimFloat.is_finite
        (map (Numpy.around (ROUND_DIGIT CONFIG)) raw) = true /\
      post_generate body a =
        Outcome (inr (Response HTTP_200_OK
                        (Json (success_envelope text
                                 (map (Numpy.around (ROUND_DIGIT CONFIG)) raw)))))
                a
                (request_logs input
                   ++ [Predict [prompt input] (generation_params input)])).
Proof.
  intros Hh.
  destruct (validate_InferenceInput body) as [errors | input] eqn:Hv.
  { left. exists errors. split; [reflexivity|].
    apply post_generate_invalid; assumption. }
  right. destruct (package a) as [pkg |] eqn:Hp.
  2:{ left. exists input. repeat split; try reflexivity.
      apply post_generate_unset; assumption. }
  right.
  destruct (predict pkg [prompt input] (generation_params input))
    as [e | [text raw]] eqn:He.
  { left. exists input, pkg, e. repeat split; try assumption.
    apply (post_generate_failure a body input pkg); assumption. }
  right.
  destruct (forallb PrimFloat.is_finite
              (map (Numpy.around (ROUND_DIGIT CONFIG)) raw)) eqn:Hfin.
  - right. exists input, pkg, text, raw. repeat split; try assumption.
    apply (post_generate_success a body input pkg text raw); assumption.
  - left. exists input, pkg, text, raw. repeat split; try assumption.
    apply (post_generate_unrenderable a body input pkg text raw); assumption.
Qed.

(** *** Validation *)

Lemma well_formed_valid (body : json) :
  well_formed body = true ->
  exists input, validate_InferenceInput body = inr input /\
                prompt input <> EmptyString.
Proof.
  destruct body as [| | | | |fields|]; try discriminate.
  unfold well_formed, validate_InferenceInput, check_prompt,
    check_generation_params.
  destruct (dict_get "prompt" fields) as [[| | |p| | |]|]; try discriminate.
  destruct (dict_get "generation_params" fields) as [[| | | | |g|]|];
    try discriminate.
  intros H. eexists. split; [reflexivity|]. cbn.
  intros ->. discriminate.
Qed.

Lemma bad_prompt_invalid (body : json) :
  (forall s, prompt_field body <> Some (JStr s)) ->
  exists errors, validate_InferenceInput body = inl errors.
Proof.
  intros H.
  destruct body as [| | | | |fields|]; try (eexists; reflexivity).
  unfold prompt_field in H.
  unfold validate_InferenceInput, check_prompt.
  destruct (dict_get "prompt" fields) as [[| | |p| | |]|];
    try (destruct (check_generation_params fields); eexists; reflexivity).
  exfalso. apply (H p). reflexivity.
Qed.

(** *** Envelopes *)




(** *** [POST /generate] *)


(** C2: a request whose [prompt] is missing or is not a string is answered
    with status 422 and [error: true], and [predict] is not called. *)
Theorem bad_prompt_rejected_before_predict (a : FastAPI) (body : json) :
  live a ->
  (forall s, prompt_field body <> Some (JStr s)) ->
  exists resp,
    result (handle (POST_generate body) a) = inr resp /\
    status_code resp = 422 /\
    error_flag (content resp) = Some true /\
    is_error_envelope (content resp) /\
    predict_calls (trace (handle (POST_generate body) a)) = 0%nat.
Proof.
  intros Hlive Hbad. apply live_handlers in Hlive.
  destruct (bad_prompt_invalid body Hbad) as [errors Hv].
  cbn [handle]. rewrite (post_generate_invalid a body errors Hlive Hv).
  eexists. split; [reflexivity|]. cbn. repeat split.
  eexists. reflexivity.
Qed.

(** C3: when [predict] raises, the answer is status 500 with [error: true];
    the application object is left as it was, so every following request is
    answered as if the failure had not happened, and a valid one on which
    [predict] returns scores that JSON can carry gets status 200 and the
    success envelope. *)
Theorem predict_failure_is_500_and_harmless
  (a : FastAPI) (body : json) (input : InferenceInput) (pkg : package_t)
  (e : py_exception) :
  live a ->
  validate_InferenceInput body = inr input ->
  package a = Some pkg ->
  predict pkg [prompt input] (generation_params input) = inl e ->
  let o := handle (POST_generate body) a in
  (exists resp,
      result o = inr resp /\ status_code resp = 500 /\
      error_flag (content resp) = Some true /\
      content resp = Json (error_envelope (exc_str e))) /\
  app_after o = a /\
  (forall r, handle r (app_after o) = handle r a) /\
  (forall body' input' text raw,
      validate_InferenceInput body' = inr input' ->
      predict pkg [prompt input'] (generation_params input') = inr (text, raw) ->
      forallb PrimFloat.is_finite
        (map (Numpy.around (ROUND_DIGIT CONFIG)) raw) = true ->
      exists resp',
        result (handle (POST_generate body') (app_after o)) = inr resp' /\
        status_code resp' = 200 /\
        is_success_envelope (content resp')).
Proof.
  intros Hlive Hv Hp He o. subst o. apply live_handlers in Hlive.
  cbn [handle]. rewrite (post_generate_failure a body input pkg e Hlive Hv Hp He).
  cbn [result app_after]. split; [|split; [|split]].
  - eexists. split; [reflexivity|]. repeat split.
  - reflexivity.
  - reflexivity.
  - intros body' input' text raw Hv' Hok Hfin.
    rewrite (post_generate_success a body' input' pkg text raw Hv' Hp Hok Hfin).
    eexists. split; [reflexivity|]. split; [reflexivity|].
    do 2 eexists. reflexivity.
Qed.



(** C5: while [app.package] has not been assigned, [POST /generate] is
    answered with the error envelope (status 500 for a valid body, from the
    missing attribute) and [predict] is not called. *)
Theorem generate_before_startup_fails (a : FastAPI) (body : json) :
  live a ->
  package a = None ->
  let o := handle (POST_generate body) a in
  exists resp,
    result o = inr resp /\
    is_error_envelope (content resp) /\
    error_flag (content resp) = Some true /\
    (status_code resp = 422 \/ status_code resp = 500) /\
    (forall input, validate_InferenceInput body = inr input ->
                   resp = failure_response no_package) /\
    predict_calls (trace o) = 0%nat /\
    app_after o = a.
Proof.
  intros Hlive Hp o. subst o. apply live_handlers in Hlive. cbn [handle].
  destruct (validate_InferenceInput body) as [errors | input] eqn:Hv.
  - rewrite (post_generate_invalid a body errors Hlive Hv).
    eexists. split; [reflexivity|]. cbn. repeat split.
    + eexists. reflexivity.
    + left. reflexivity.
    + intros input H. discriminate H.
  - rewrite (post_generate_unset a body input Hlive Hv Hp).
    eexists. split; [reflexivity|]. cbn. repeat split.
    + eexists. reflexivity.
    + right. reflexivity.
Qed.

(** *** Requests leave the application object alone *)

Lemma respond_total (c : exc_class) (exc : raised) (a : FastAPI) :
  exists resp, result (respond c exc a) = inr resp /\ app_after (respond c exc a) = a.
Proof.
  unfold respond. destruct (lookup_handler c (exception_handlers a));
    eexists; split; reflexivity.
Qed.

Lemma do_predict_app_after (input : InferenceInput) (a : FastAPI) :
  app_after (do_predict input a) = a.
Proof.
  unfold do_predict, bind, logger_info, emit, get_package, lift, ret. cbn.
  destruct (package a) as [pkg |]; cbn; [|reflexivity].
  destruct (predict pkg [prompt input] (generation_params input)); reflexivity.
Qed.

Lemma show_about_eval (a : FastAPI) :
  show_about a =
    Outcome (inr (JObj [("sys.version", JStr (sys_version env));
                        ("torch.__version__", JStr (torch_version env));
                        ("torch.cuda.is_available()", JBool (cuda_is_available env));
                        ("torch.version.cuda",
                           json_of_option JStr (torch_version_cuda env));
                        ("torch.backends.cudnn.version()",
                           json_of_option (fun v => JNum (inject_Z v))
                             (cudnn_version env));
                        ("torch.backends.cudnn.enabled", JBool (cudnn_enabled env));
                        ("nvidia-smi", JStr (popen_read env "nvidia-smi"))]%string))
            a [Popen "nvidia-smi"].
Proof. reflexivity. Qed.

Lemma route_total (endpoint : M json) (a : FastAPI) :
  app_after (endpoint a) = a ->
  exists resp, result (route endpoint a) = inr resp /\
               app_after (route endpoint a) = a.
Proof.
  intros Hsame. unfold route, catch, bind, render, ret, raise.
  destruct (endpoint a) as [[e | value] a' t] eqn:E; cbn in *; subst a'.
  - destruct (respond_total Exception (Uncaught e) a) as (resp & Hr & Ha).
    exists resp. split; assumption.
  - destruct (json_compliant value); cbn.
    + eexists. split; reflexivity.
    + destruct (respond_total Exception (Uncaught not_json_compliant) a)
        as (resp & Hr & Ha).
      exists resp. split; assumption.
Qed.

Lemma get_about_eval (a : FastAPI) :
  get_about a =
    Outcome
      (inr (Response 200
              (Json (JObj [("sys.version", JStr (sys_version env));
                           ("torch.__version__", JStr (torch_version env));
                           ("torch.cuda.is_available()",
                              JBool (cuda_is_available env));
                           ("torch.version.cuda",
                              json_of_option JStr (torch_version_cuda env));
                           ("torch.backends.cudnn.version()",
                              json_of_option (fun v => JNum (inject_Z v))
                                (cudnn_version env));
                           ("torch.backends.cudnn.enabled",
                              JBool (cudnn_enabled env));
                           ("nvidia-smi",
                              JStr (popen_read env "nvidia-smi"))]%string))))
      a [Popen "nvidia-smi"].
Proof.
  unfold get_about, route, catch, bind, render. rewrite show_about_eval.
  cbn [result app_after trace].
  destruct (torch_version_cuda env), (cudnn_version env); reflexivity.
Qed.

Lemma handle_total (r : request) (a : FastAPI) :
  exists resp, result (handle r a) = inr resp /\ app_after (handle r a) = a.
Proof.
  destruct r as [body |]; cbn [handle].
  - unfold post_generate.
    destruct (validate_InferenceInput body) as [errors | input].
    + apply respond_total.
    + apply route_total. apply do_predict_app_after.
  - unfold get_about. apply route_total. rewrite show_about_eval. reflexivity.
Qed.

Lemma serve_total (requests : list request) (a : FastAPI) :
  exists rs, result (serve requests a) = inr rs /\
             app_after (serve requests a) = a /\
             List.length rs = List.length requests.
Proof.
  induction requests as [| r rest IH]; cbn [serve].
  - exists []. repeat split.
  - destruct (handle_total r a) as (resp & Hr & Ha).
    destruct IH as (rs & Hrs & Has & Hlen).
    exists (resp :: rs). unfold bind. rewrite Hr, Ha. cbn.
    rewrite Hrs, Has. cbn. repeat split. now rewrite Hlen.
Qed.

Lemma package_writes_app (t1 t2 : list event) :
  package_writes (t1 ++ t2) = (package_writes t1 + package_writes t2)%nat.
Proof. unfold package_writes. rewrite filter_app, length_app. reflexivity. Qed.

Lemma predict_calls_app (t1 t2 : list event) :
  predict_calls (t1 ++ t2) = (predict_calls t1 + predict_calls t2)%nat.
Proof. unfold predict_calls. rewrite filter_app, length_app. reflexivity. Qed.

Lemma handle_no_writes (r : request) (a : FastAPI) :
  exception_handlers a = main_handlers ->
  package_writes (trace (handle r a)) = 0%nat.
Proof.
  intros Hh. destruct r as [body |]; cbn [handle].
  - destruct (post_generate_cases a body Hh)
      as [(errors & _ & ->) | [(input & _ & _ & ->)
         | [(input & pkg & e & _ & _ & _ & ->)
         | [(input & pkg & text & raw & _ & _ & _ & _ & ->)
         | (input & pkg & text & raw & _ & _ & _ & _ & ->)]]]]; reflexivity.
  - rewrite get_about_eval. reflexivity.
Qed.

Lemma serve_no_writes (requests : list request) (a : FastAPI) :
  exception_handlers a = main_handlers ->
  package_writes (trace (serve requests a)) = 0%nat.
Proof.
  intros Hh. induction requests as [| r rest IH]; cbn [serve]; [reflexivity|].
  destruct (handle_total r a) as (resp & Hr & Ha).
  destruct (serve_total rest a) as (rs & Hrs & Has & _).
  unfold bind. rewrite Hr, Ha. cbn [result app_after trace].
  rewrite Hrs. cbn [result app_after trace ret].
  rewrite !package_writes_app, handle_no_writes, IH by exact Hh. reflexivity.
Qed.

(** *** The startup hook *)

Lemma startup_event_failure (a : FastAPI) (e : py_exception) :
  init_causallm (MODEL_NAME_OR_PATH CONFIG) = inl e ->
  startup_event a = Outcome (inl e) a startup_logs.
Proof.
  intros H. unfold startup_event, bind, logger_info, emit, lift. cbn.
  rewrite H. reflexivity.
Qed.

Lemma startup_event_success (a : FastAPI) (m : Model) (t : Tokenizer) :
  init_causallm (MODEL_NAME_OR_PATH CONFIG) = inr (m, t) ->
  startup_event a =
    Outcome (inr tt) (set_package {| model := m; tokenizer := t |} a)
            (startup_logs ++ [SetPackage]).
Proof.
  intros H. unfold startup_event, bind, logger_info, emit, lift, assign_package.
  cbn. rewrite H. reflexivity.
Qed.

(** *** The process *)

(** C6: in a process that serves, [app.package] is unset when the module
    has been imported, the startup hook assigns it once, to the pair the
    loader returned, ahead of everything the requests do; no request assigns
    it, every request leaves the application object as it found it, and the
    slot still holds that pair after the last request. *)
Theorem package_assigned_once_at_startup
  (host : string) (port : Z) (requests : list request) :
  exit (main host port requests) = Serving ->
  exists a0 p,
    app = inr a0 /\
    state (main host port requests) = Some (set_package p a0) /\
    events (main host port requests) =
      trace (startup_event a0) ++ trace (serve requests (set_package p a0)) /\
    package_writes (trace (startup_event a0)) = 1%nat /\
    predict_calls (trace (startup_event a0)) = 0%nat /\
    package_writes (trace (serve requests (set_package p a0))) = 0%nat /\
    package_writes (events (main host port requests)) = 1%nat /\
    (forall r a, live a ->
       app_after (handle r a) = a /\
       package_writes (trace (handle r a)) = 0%nat) /\
    package a0 = None /\
    init_causallm (MODEL_NAME_OR_PATH CONFIG) = inr (model p, tokenizer p) /\
    package (app_after (startup_event a0)) = Some p /\
    app_after (serve requests (app_after (startup_event a0)))
      = app_after (startup_event a0) /\
    (exists a, state (main host port requests) = Some a /\ package a = Some p).
Proof.
  unfold main. destruct app as [e | a0] eqn:Happ; [discriminate|].
  destruct (init_causallm (MODEL_NAME_OR_PATH CONFIG)) as [e | [m t]] eqn:Hinit.
  { rewrite (startup_event_failure a0 e Hinit). discriminate. }
  rewrite (startup_event_success a0 m t Hinit). cbn [result app_after trace].
  set (p := {| model := m; tokenizer := t |}).
  destruct (serve_total requests (set_package p a0)) as (rs & Hrs & Has & _).
  rewrite Hrs. cbn [exit state events]. intros _.
  assert (Hh : exception_handlers (set_package p a0) = main_handlers).
  { apply live_handlers. exists a0. split; [exact Happ|]. right. exists p.
    reflexivity. }
  exists a0, p. rewrite (startup_event_success a0 m t Hinit).
  cbn [result app_after trace]. fold p.
  split; [reflexivity|]. split; [rewrite Has; reflexivity|].
  split; [reflexivity|]. split; [reflexivity|]. split; [reflexivity|].
  split; [apply serve_no_writes; exact Hh|].
  split; [rewrite package_writes_app, (serve_no_writes requests _ Hh);
          reflexivity|].
  split.
  { intros r a Hlive. split.
    + destruct (handle_total r a) as (resp & _ & Ha). exact Ha.
    + apply handle_no_writes. apply live_handlers. exact Hlive. }
  split; [apply app_handlers in Happ as [_ Hnone]; exact Hnone|].
  split; [reflexivity|]. split; [reflexivity|]. split; [exact Has|].
  exists (set_package p a0). split; [rewrite Has; reflexivity | reflexivity].
Qed.

(** C7: when [init_causallm] raises in the startup hook, the hook raises the
    same failure, the process stops at startup, no request is answered and
    [predict] is never called. *)
Theorem loader_failure_aborts_startup
  (a0 : FastAPI) (e : py_exception) (host : string) (port : Z)
  (requests : list request) :
  app = inr a0 ->
  init_causallm (MODEL_NAME_OR_PATH CONFIG) = inl e ->
  result (startup_event a0) = inl e /\
  package (app_after (startup_event a0)) = None /\
  exit (main host port requests) = StartupFailed e /\
  responses (main host port requests) = [] /\
  predict_calls (events (main host port requests)) = 0%nat.
Proof.
  intros Happ Hinit. unfold main. rewrite Happ.
  rewrite (startup_event_failure a0 e Hinit). cbn [result app_after trace].
  apply app_handlers in Happ as [_ Hp]. repeat split. exact Hp.
Qed.


(** C9: the module mounts ["static/"] while it builds [app]; when that
    directory does not exist the construction raises, so the startup hook
    never runs and no request is answered. *)
Theorem missing_static_directory_prevents_start :
  isdir env "static/" = false ->
  app = inl (PyException "RuntimeError" "Directory 'static/' does not exist") /\
  forall host port requests,
    exit (main host port requests) =
      ImportFailed (PyException "RuntimeError" "Directory 'static/' does not exist") /\
    responses (main host port requests) = [] /\
    events (main host port requests) = [] /\
    state (main host port requests) = None.
Proof.
  intros Hdir.
  assert (Happ : app = inl (PyException "RuntimeError"
                              "Directory 'static/' does not exist")).
  { unfold app, StaticFiles. rewrite Hdir. reflexivity. }
  split; [exact Happ|]. intros host port requests.
  unfold main. rewrite Happ. repeat split.
Qed.

Lemma app_mounts_static (a0 : FastAPI) :
  app = inr a0 ->
  isdir env "static/" = true /\
  mounts a0 = [("/static"%string, {| directory := "static/" |})].
Proof.
  unfold app, StaticFiles. destruct (isdir env "static/"); [|discriminate].
  intros H. injection H as <-. split; reflexivity.
Qed.

(** C10: when the shell cannot find [nvidia-smi], [os.popen(...).read()]
    gives the empty string and [GET /about] still answers with status 200,
    the [nvidia-smi] field being empty. *)
Theorem about_survives_missing_tool (a : FastAPI) :
  shell env "nvidia-smi" = None ->
  exists fields,
    handle GET_about a =
      Outcome (inr (Response 200 (Json (JObj fields)))) a [Popen "nvidia-smi"] /\
    dict_get "nvidia-smi" fields = Some (JStr EmptyString).
Proof.
  intros Hmissing. cbn [handle]. rewrite get_about_eval.
  eexists. split; [reflexivity|]. cbn. unfold popen_read. rewrite Hmissing.
  reflexivity.
Qed.

(** *** More on [POST /generate] *)

(** X1: A valid request reaches [predict] once, with the prompt as a batch of one
    and the generation parameters as they came, whether [predict] then
    returns or raises, and whether or not its scores can be rendered. *)
Theorem generate_calls_predict_once
  (a : FastAPI) (body : json) (input : InferenceInput) (pkg : package_t) :
  live a ->
  validate_InferenceInput body = inr input ->
  package a = Some pkg ->
  filter is_predict (trace (handle (POST_generate body) a)) =
    [Predict [prompt input] (generation_params input)].
Proof.
  intros Hlive Hv Hp. apply live_handlers in Hlive. cbn [handle].
  destruct (predict pkg [prompt input] (generation_params input))
    as [e | [text raw]] eqn:He.
  - rewrite (post_generate_failure a body input pkg e Hlive Hv Hp He).
    reflexivity.
  - destruct (forallb PrimFloat.is_finite
                (map (Numpy.around (ROUND_DIGIT CONFIG)) raw)) eqn:Hfin.
    + rewrite (post_generate_success a body input pkg text raw Hv Hp He Hfin).
      reflexivity.
    + rewrite (post_generate_unrenderable a body input pkg text raw
                 Hlive Hv Hp He Hfin).
      reflexivity.
Qed.

(** X2: The route logs the call and its input before it touches the model, so a
    request that fails later is logged too; a body the schema rejects never
    enters the route and leaves no entry. *)
Theorem generate_logs_input_first (a : FastAPI) (body : json) :
  live a ->
  match validate_InferenceInput body with
  | inr input =>
      exists rest,
        trace (handle (POST_generate body) a) = request_logs input ++ rest
  | inl _ => trace (handle (POST_generate body) a) = []
  end.
Proof.
  intros Hlive. apply live_handlers in Hlive. cbn [handle].
  destruct (post_generate_cases a body Hlive)
    as [(errors & -> & ->) | [(input & -> & _ & ->)
       | [(input & pkg & e & -> & _ & _ & ->)
       | [(input & pkg & text & raw & -> & _ & _ & _ & ->)
       | (input & pkg & text & raw & -> & _ & _ & _ & ->)]]]];
    cbn [trace]; try reflexivity; eexists; reflexivity.
Qed.

(** X3: The status code tells what happened: 422 exactly when the body is
    rejected, 200 exactly when the package is there, [predict] returns and
    the rounded scores are finite, 500 exactly when the body is accepted and
    the package is missing, [predict] raises, or a rounded score is an
    infinity or a NaN. *)
Theorem generate_status_classification
  (a : FastAPI) (body : json) (resp : response) :
  live a ->
  result (handle (POST_generate body) a) = inr resp ->
  (status_code resp = 422 <->
     exists errors, validate_InferenceInput body = inl errors) /\
  (status_code resp = 200 <->
     exists input pkg text raw,
       validate_InferenceInput body = inr input /\
       package a = Some pkg /\
       predict pkg [prompt input] (generation_params input) = inr (text, raw) /\
       forallb PrimFloat.is_finite
         (map (Numpy.around (ROUND_DIGIT CONFIG)) raw) = true) /\
  (status_code resp = 500 <->
     exists input,
       validate_InferenceInput body = inr input /\
       (package a = None \/
        (exists pkg e,
           package a = Some pkg /\
           predict pkg [prompt input] (generation_params input) = inl e) \/
        (exists pkg text raw,
           package a = Some pkg /\
           predict pkg [prompt input] (generation_params input)
             = inr (text, raw) /\
           forallb PrimFloat.is_finite
             (map (Numpy.around (ROUND_DIGIT CONFIG)) raw) = false))).
Proof.
  intros Hlive Hres. apply live_handlers in Hlive. cbn [handle] in Hres.
  destruct (post_generate_cases a body Hlive)
    as [(errors & Hv & E) | [(input & Hv & Hp & E)
       | [(input & pkg & e & Hv & Hp & He & E)
       | [(input & pkg & text & raw & Hv & Hp & He & Hfin & E)
       | (input & pkg & text & raw & Hv & Hp & He & Hfin & E)]]]];
    rewrite E in Hres; cbn in Hres; injection Hres as <-; cbn [status_code];
    rewrite Hv; (split; [|split]); split.
  (* the body is rejected *)
  - intros _. exists errors. reflexivity.
  - reflexivity.
  - intros H. discriminate H.
  - intros (? & ? & ? & ? & H & _). discriminate H.
  - intros H. discriminate H.
  - intros (? & H & _). discriminate H.
  (* the package is missing *)
  - intros H. discriminate H.
  - intros (? & H). discriminate H.
  - intros H. discriminate H.
  - intros (? & pkg & ? & ? & _ & Hp' & _). rewrite Hp in Hp'. discriminate Hp'.
  - intros _. exists input. split; [reflexivity|]. left. exact Hp.
  - reflexivity.
  (* predict raises *)
  - intros H. discriminate H.
  - intros (? & H). discriminate H.
  - intros H. discriminate H.
  - intros (input' & pkg' & text & raw & Hv' & Hp' & He' & _).
    injection Hv' as <-. rewrite Hp in Hp'. injection Hp' as <-.
    rewrite He in He'. discriminate He'.
  - intros _. exists input. split; [reflexivity|]. right. left. exists pkg, e.
    split; assumption.
  - reflexivity.
  (* a rounded score cannot be rendered *)
  - intros H. discriminate H.
  - intros (? & H). discriminate H.
  - intros H. discriminate H.
  - intros (input' & pkg' & text' & raw' & Hv' & Hp' & He' & Hfin').
    injection Hv' as <-. rewrite Hp in Hp'. injection Hp' as <-.
    rewrite He in He'. injection He' as <- <-.
    rewrite Hfin in Hfin'. discriminate Hfin'.
  - intros _. exists input. split; [reflexivity|]. right. right.
    exists pkg, text, raw. repeat split; assumption.
  - reflexivity.
  (* predict returns scores that can be rendered *)
  - intros H. discriminate H.
  - intros (? & H). discriminate H.
  - intros _. exists input, pkg, text, raw. repeat split; assumption.
  - reflexivity.
  - intros H. discriminate H.
  - intros (input' & Hv' & [Hp' | [(pkg' & e & Hp' & He')
                                  | (pkg' & text' & raw' & Hp' & He' & Hfin')]]).
    + rewrite Hp in Hp'. discriminate Hp'.
    + injection Hv' as <-. rewrite Hp in Hp'. injection Hp' as <-.
      rewrite He in He'. discriminate He'.
    + injection Hv' as <-. rewrite Hp in Hp'. injection Hp' as <-.
      rewrite He in He'. injection He' as <- <-.
      rewrite Hfin in Hfin'. discriminate Hfin'.
Qed.

(** X4: The two routes keep to their own collaborators: [POST /generate] runs no
    shell command, [GET /about] does not call [predict]. *)
Theorem routes_keep_to_their_collaborators (a : FastAPI) (body : json) :
  live a ->
  popen_calls (trace (handle (POST_generate body) a)) = 0%nat /\
  predict_calls (trace (handle GET_about a)) = 0%nat /\
  popen_calls (trace (handle GET_about a)) = 1%nat.
Proof.
  intros Hlive. apply live_handlers in Hlive. split; [|split].
  - cbn [handle].
    destruct (post_generate_cases a body Hlive)
      as [(errors & _ & ->) | [(input & _ & _ & ->)
         | [(input & pkg & e & _ & _ & _ & ->)
         | [(input & pkg & text & raw & _ & _ & _ & _ & ->)
         | (input & pkg & text & raw & _ & _ & _ & _ & ->)]]]]; reflexivity.
  - cbn [handle]. rewrite get_about_eval. reflexivity.
  - cbn [handle]. rewrite get_about_eval. reflexivity.
Qed.

(** *** More on the startup hook and the process *)

(** X9: When the loader returns, the hook has called it once, on the configured
    path, the package holds the pair it returned, and what the module
    registered on the application is untouched. *)
Theorem startup_event_installs_loaded_pair
  (a : FastAPI) (m : Model) (t : Tokenizer) :
  init_causallm (MODEL_NAME_OR_PATH CONFIG) = inr (m, t) ->
  let o := startup_event a in
  result o = inr tt /\
  package (app_after o) = Some {| model := m; tokenizer := t |} /\
  exception_handlers (app_after o) = exception_handlers a /\
  mounts (app_after o) = mounts a /\
  user_middleware (app_after o) = user_middleware a /\
  filter is_init_causallm (trace o) = [InitCausalLM (MODEL_NAME_OR_PATH CONFIG)] /\
  (live a -> live (app_after o)).
Proof.
  intros Hinit o. subst o. rewrite (startup_event_success a m t Hinit).
  cbn [result app_after trace]. repeat split.
  apply live_set_package.
Qed.

Lemma app_built : isdir env "static/" = true -> app = inr (module_app static_dir).
Proof. intros H. unfold app, StaticFiles. rewrite H. reflexivity. Qed.

Lemma main_serving (host : string) (port : Z) (requests : list request)
  (m : Model) (t : Tokenizer) :
  isdir env "static/" = true ->
  init_causallm (MODEL_NAME_OR_PATH CONFIG) = inr (m, t) ->
  let a := set_package {| model := m; tokenizer := t |} (module_app static_dir) in
  exists rs,
    result (serve requests a) = inr rs /\
    main host port requests =
      {| exit := Serving; responses := rs;
         events := (startup_logs ++ [SetPackage]) ++ trace (serve requests a);
         state := Some a |}.
Proof.
  intros Hdir Hinit a.
  destruct (serve_total requests a) as (rs & Hrs & Has & _).
  exists rs. split; [exact Hrs|].
  unfold main. rewrite (app_built Hdir).
  rewrite (startup_event_success _ m t Hinit). cbn [result app_after trace].
  fold a. rewrite Hrs, Has. reflexivity.
Qed.

Lemma main_not_serving (host : string) (port : Z) (requests : list request) :
  isdir env "static/" = false \/
  (exists e, init_causallm (MODEL_NAME_OR_PATH CONFIG) = inl e) ->
  responses (main host port requests) = [] /\
  (exists e, exit (main host port requests) = ImportFailed e \/
             exit (main host port requests) = StartupFailed e).
Proof.
  intros H. unfold main, app, StaticFiles.
  destruct (isdir env "static/") eqn:Hdir.
  - destruct H as [H | [e He]]; [discriminate H|].
    rewrite (startup_event_failure _ e He). cbn. split; [reflexivity|].
    exists e. right. reflexivity.
  - cbn. split; [reflexivity|]. eexists. left. reflexivity.
Qed.

Lemma main_phases (host : string) (port : Z) (requests : list request) :
  (isdir env "static/" = true /\
   exists m t, init_causallm (MODEL_NAME_OR_PATH CONFIG) = inr (m, t)) \/
  (isdir env "static/" = false \/
   exists e, init_causallm (MODEL_NAME_OR_PATH CONFIG) = inl e).
Proof.
  destruct (isdir env "static/"); [|right; left; reflexivity].
  destruct (init_causallm (MODEL_NAME_OR_PATH CONFIG)) as [e | [m t]].
  - right. right. exists e. reflexivity.
  - left. split; [reflexivity|]. exists m, t. reflexivity.
Qed.

Lemma main_serving_inv (host : string) (port : Z) (requests : list request) :
  exit (main host port requests) = Serving ->
  isdir env "static/" = true /\
  exists m t, init_causallm (MODEL_NAME_OR_PATH CONFIG) = inr (m, t).
Proof.
  intros Hexit.
  destruct (main_phases host port requests) as [H | H]; [exact H|].
  destruct (main_not_serving host port requests H) as [_ [e [He | He]]];
    rewrite He in Hexit; discriminate Hexit.
Qed.



Lemma handle_predict_calls (r : request) (a : FastAPI) (pkg : package_t) :
  exception_handlers a = main_handlers ->
  package a = Some pkg ->
  predict_calls (trace (handle r a)) = if reaches_do_predict r then 1%nat else 0%nat.
Proof.
  intros Hh Hp. destruct r as [body |]; cbn [handle reaches_do_predict].
  - destruct (post_generate_cases a body Hh)
      as [(errors & Hv & ->) | [(input & Hv & Hp' & ->)
         | [(input & pkg' & e & Hv & _ & _ & ->)
         | [(input & pkg' & text & raw & Hv & _ & _ & _ & ->)
         | (input & pkg' & text & raw & Hv & _ & _ & _ & ->)]]]];
      rewrite Hv; try reflexivity.
    rewrite Hp in Hp'. discriminate Hp'.
  - rewrite get_about_eval. reflexivity.
Qed.

Lemma serve_predict_calls (requests : list request) (a : FastAPI)
  (pkg : package_t) :
  exception_handlers a = main_handlers ->
  package a = Some pkg ->
  predict_calls (trace (serve requests a)) =
    List.length (filter reaches_do_predict requests).
Proof.
  intros Hh Hp. induction requests as [| r rest IH]; cbn [serve filter];
    [reflexivity|].
  destruct (handle_total r a) as (resp & Hr & Ha).
  destruct (serve_total rest a) as (rs & Hrs & Has & _).
  unfold bind. rewrite Hr, Ha. cbn [result app_after trace].
  rewrite Hrs. cbn [result app_after trace ret].
  rewrite !predict_calls_app, (handle_predict_calls r a pkg Hh Hp), IH.
  destruct (reaches_do_predict r); cbn; lia.
Qed.

(** X13: In a serving process [predict] is called once for every request with an
    accepted body, and for nothing else. *)
Theorem predict_called_once_per_accepted_request
  (host : string) (port : Z) (requests : list request) :
  exit (main host port requests) = Serving ->
  predict_calls (events (main host port requests)) =
    List.length (filter reaches_do_predict requests).
Proof.
  intros Hexit. apply main_serving_inv in Hexit as (Hdir & m & t & Hinit).
  destruct (main_serving host port requests m t Hdir Hinit) as (rs & _ & ->).
  cbn [events]. rewrite predict_calls_app.
  rewrite (serve_predict_calls requests _ {| model := m; tokenizer := t |});
    reflexivity.
Qed.



(** *** More on [GET /about] *)

(** X15: When the shell finds [nvidia-smi], the field carries what the tool wrote
    to its standard output, as it is. *)
Theorem about_returns_tool_output (a : FastAPI) (out : string) :
  shell env "nvidia-smi" = Some out ->
  exists fields,
    handle GET_about a =
      Outcome (inr (Response 200 (Json (JObj fields)))) a [Popen "nvidia-smi"] /\
    dict_get "nvidia-smi" fields = Some (JStr out).
Proof.
  intros Hout. cbn [handle]. rewrite get_about_eval.
  eexists. split; [reflexivity|]. cbn. unfold popen_read. rewrite Hout.
  reflexivity.
Qed.

(** X16: On a build without CUDA, where the toolkit and cuDNN versions are
    [None], the two fields are [null] and the answer is still 200. *)
Theorem about_without_cuda_reports_null (a : FastAPI) :
  torch_version_cuda env = None ->
  cudnn_version env = None ->
  exists fields,
    result (handle GET_about a) = inr (Response 200 (Json (JObj fields))) /\
    dict_get "torch.version.cuda" fields = Some JNull /\
    dict_get "torch.backends.cudnn.version()" fields = Some JNull /\
    List.length fields = 7%nat.
Proof.
  intros Hcuda Hcudnn. cbn [handle]. rewrite get_about_eval.
  eexists. split; [reflexivity|]. cbn. rewrite Hcuda, Hcudnn.
  repeat split.
Qed.

End Main.

(** ** The properties on concrete runs *)

Abbreviation fresh := (module_app unit unit {| directory := "static/" |}).
Abbreviation running :=
  (set_package unit unit {| model := tt; tokenizer := tt |} fresh).
Abbreviation stub_handle :=
  (handle unit unit Stub.CONFIG Stub.predict Stub.env).
Abbreviation stub_main :=
  (main unit unit Stub.CONFIG Stub.init_causallm Stub.predict Stub.env).

Lemma fresh_live : live unit unit Stub.env fresh.
Proof. exists fresh. split; [reflexivity | left; reflexivity]. Qed.

Lemma running_live : live unit unit Stub.env running.
Proof.
  exists fresh. split; [reflexivity | right; eexists; reflexivity].
Qed.

Example stub_run :
  responses _ _
    (stub_main "0.0.0.0" 8000
       [POST_generate Stub.good_body; POST_generate Stub.boom_body;
        POST_generate Stub.no_prompt_body; GET_about;
        POST_generate Stub.good_body])
  = [Response 200
       (Json (success_envelope ["hello world"%string] [0.12; 2.68]%float));
     Response 500 (Json (error_envelope "CUDA out of memory"));
     Response 422 (Json (error_envelope "prompt: field required"));
     Response 200
       (Json (JObj [("sys.version", JStr "3.10.12");
                    ("torch.__version__", JStr "2.0.1");
                    ("torch.cuda.is_available()", JBool false);
                    ("torch.version.cuda", JNull);
                    ("torch.backends.cudnn.version()", JNull);
                    ("torch.backends.cudnn.enabled", JBool true);
                    ("nvidia-smi", JStr "")]%string));
     Response 200
       (Json (success_envelope ["hello world"%string] [0.12; 2.68]%float))].
Proof. reflexivity. Qed.

Example stub_run_edge_scores :
  responses _ _
    (stub_main "0.0.0.0" 8000
       [POST_generate Stub.tie_body; POST_generate Stub.huge_body])
  = [Response 200
       (Json (success_envelope ["tie world"%string] [0.2]%float));
     Response 500
       (Json (error_envelope
                "Out of range float values are not JSON compliant"))].
Proof. reflexivity. Qed.

Example around_on_floats :
  Numpy.around 2 0.123456 = 0.12%float /\
  Numpy.around 2 0.20500000000000002 = 0.2%float /\
  Numpy.around 2 0.575 = 0.57%float /\
  Numpy.around 2 2.675 = 2.68%float /\
  Numpy.around 0 2.5 = 2%float /\
  Numpy.around 0 3.5 = 4%float /\
  Numpy.around 1 (-0.25) = (-0.2)%float /\
  Numpy.around 2 (-0.001) = neg_zero /\
  Numpy.around (-2) 1250 = 1200%float /\
  Numpy.around 2 1e308 = infinity /\
  Numpy.around 2 neg_infinity = neg_infinity /\
  Numpy.around 2 nan = nan.
Proof. repeat split. Qed.

Example decimal_reading_of_floats :
  Decimal.rounds_decimally 2 0.123456 0.12 /\
  Decimal.rounds_decimally 2 2.675 2.67 /\
  Decimal.rounds_decimally 2 0.20500000000000002 0.21.
Proof.
  repeat split; do 2 eexists; (split; [reflexivity|]); (split; [reflexivity|]);
    reflexivity.
Qed.


Lemma bad_prompt_rejected_before_predict_witness :
  prompt_field Stub.numeric_prompt_body = Some (JNum 5%Q) /\
  exists resp,
    result _ _ _ (stub_handle (POST_generate Stub.numeric_prompt_body) running)
      = inr resp /\
    status_code resp = 422 /\
    error_flag (content resp) = Some true /\
    is_error_envelope (content resp) /\
    predict_calls
      (trace _ _ _ (stub_handle (POST_generate Stub.numeric_prompt_body) running))
      = 0%nat.
Proof.
  split; [reflexivity|].
  apply (bad_prompt_rejected_before_predict unit unit Stub.CONFIG Stub.predict
           Stub.env running Stub.numeric_prompt_body running_live).
  intros s H. discriminate H.
Defined.

Lemma predict_failure_is_500_and_harmless_witness :
  let o := stub_handle (POST_generate Stub.boom_body) running in
  (exists resp,
      result _ _ _ o = inr resp /\ status_code resp = 500 /\
      error_flag (content resp) = Some true /\
      content resp = Json (error_envelope "CUDA out of memory")) /\
  app_after _ _ _ o = running /\
  (forall r, stub_handle r (app_after _ _ _ o) = stub_handle r running) /\
  (forall body' input' text raw,
      validate_InferenceInput body' = inr input' ->
      Stub.predict {| model := tt; tokenizer := tt |} [prompt input']
        (generation_params input') = inr (text, raw) ->
      forallb PrimFloat.is_finite (map (Numpy.around 2) raw) = true ->
      exists resp',
        result _ _ _ (stub_handle (POST_generate body') (app_after _ _ _ o))
          = inr resp' /\
        status_code resp' = 200 /\
        is_success_envelope (content resp')).
Proof.
  apply (predict_failure_is_500_and_harmless unit unit Stub.CONFIG Stub.predict
           Stub.env running Stub.boom_body
           {| prompt := "boom"; generation_params := [] |}
           {| model := tt; tokenizer := tt |} Stub.out_of_memory running_live);
    reflexivity.
Defined.



Lemma generate_before_startup_fails_witness :
  let o := stub_handle (POST_generate Stub.good_body) fresh in
  exists resp,
    result _ _ _ o = inr resp /\
    is_error_envelope (content resp) /\
    error_flag (content resp) = Some true /\
    (status_code resp = 422 \/ status_code resp = 500) /\
    (forall input, validate_InferenceInput Stub.good_body = inr input ->
                   resp = failure_response no_package) /\
    predict_calls (trace _ _ _ o) = 0%nat /\
    app_after _ _ _ o = fresh.
Proof.
  apply (generate_before_startup_fails unit unit Stub.CONFIG Stub.predict
           Stub.env fresh Stub.good_body fresh_live).
  reflexivity.
Defined.

Lemma package_assigned_once_at_startup_witness :
  let requests := [POST_generate Stub.good_body; GET_about;
                   POST_generate Stub.boom_body] in
  exit _ _ (stub_main "0.0.0.0" 8000 requests) = Serving /\
  exists a0 p,
    app unit unit Stub.env = inr a0 /\
    state _ _ (stub_main "0.0.0.0" 8000 requests) = Some (set_package _ _ p a0) /\
    events _ _ (stub_main "0.0.0.0" 8000 requests) =
      trace _ _ _ (startup_event _ _ Stub.CONFIG Stub.init_causallm a0)
        ++ trace _ _ _ (serve _ _ Stub.CONFIG Stub.predict Stub.env requests
                          (set_package _ _ p a0)) /\
    package_writes
      (trace _ _ _ (startup_event _ _ Stub.CONFIG Stub.init_causallm a0)) = 1%nat /\
    predict_calls
      (trace _ _ _ (startup_event _ _ Stub.CONFIG Stub.init_causallm a0)) = 0%nat /\
    package_writes
      (trace _ _ _ (serve _ _ Stub.CONFIG Stub.predict Stub.env requests
                      (set_package _ _ p a0))) = 0%nat /\
    package_writes (events _ _ (stub_main "0.0.0.0" 8000 requests)) = 1%nat /\
    (forall r a, live _ _ Stub.env a ->
       app_after _ _ _ (stub_handle r a) = a /\
       package_writes (trace _ _ _ (stub_handle r a)) = 0%nat) /\
    package _ _ a0 = None /\
    Stub.init_causallm (MODEL_NAME_OR_PATH Stub.CONFIG)
      = inr (model _ _ p, tokenizer _ _ p) /\
    package _ _
      (app_after _ _ _ (startup_event _ _ Stub.CONFIG Stub.init_causallm a0))
      = Some p /\
    app_after _ _ _
      (serve _ _ Stub.CONFIG Stub.predict Stub.env requests
         (app_after _ _ _
            (startup_event _ _ Stub.CONFIG Stub.init_causallm a0)))
      = app_after _ _ _ (startup_event _ _ Stub.CONFIG Stub.init_causallm a0) /\
    (exists a, state _ _ (stub_main "0.0.0.0" 8000 requests) = Some a /\
               package _ _ a = Some p).
Proof.
  intros requests. split; [reflexivity|].
  apply (package_assigned_once_at_startup unit unit Stub.CONFIG
           Stub.init_causallm Stub.predict Stub.env "0.0.0.0" 8000 requests).
  reflexivity.
Defined.

Lemma loader_failure_aborts_startup_witness :
  let e := PyException "OSError" "llama-7b is not a local folder" in
  let run := main unit unit Stub.CONFIG Stub.faulty_init_causallm Stub.predict
               Stub.env "0.0.0.0" 8000 [POST_generate Stub.good_body] in
  Stub.faulty_init_causallm (MODEL_NAME_OR_PATH Stub.CONFIG) = inl e /\
  result _ _ _ (startup_event _ _ Stub.CONFIG Stub.faulty_init_causallm fresh)
    = inl e /\
  package _ _
    (app_after _ _ _
       (startup_event _ _ Stub.CONFIG Stub.faulty_init_causallm fresh)) = None /\
  exit _ _ run = StartupFailed e /\
  responses _ _ run = [] /\
  predict_calls (events _ _ run) = 0%nat.
Proof.
  intros e run. split; [reflexivity|].
  apply (loader_failure_aborts_startup unit unit Stub.CONFIG
           Stub.faulty_init_causallm Stub.predict Stub.env fresh e
           "0.0.0.0" 8000 [POST_generate Stub.good_body]); reflexivity.
Defined.

Lemma missing_static_directory_prevents_start_witness :
  isdir Stub.bare_env "static/" = false /\
  app unit unit Stub.bare_env =
    inl (PyException "RuntimeError" "Directory 'static/' does not exist") /\
  forall host port requests,
    exit _ _ (main unit unit Stub.CONFIG Stub.init_causallm Stub.predict
                Stub.bare_env host port requests) =
      ImportFailed
        (PyException "RuntimeError" "Directory 'static/' does not exist") /\
    responses _ _ (main unit unit Stub.CONFIG Stub.init_causallm Stub.predict
                     Stub.bare_env host port requests) = [] /\
    events _ _ (main unit unit Stub.CONFIG Stub.init_causallm Stub.predict
                  Stub.bare_env host port requests) = [] /\
    state _ _ (main unit unit Stub.CONFIG Stub.init_causallm Stub.predict
                 Stub.bare_env host port requests) = None.
Proof.
  split; [reflexivity|].
  apply (missing_static_directory_prevents_start unit unit Stub.CONFIG
           Stub.init_causallm Stub.predict Stub.bare_env).
  reflexivity.
Defined.

Lemma about_survives_missing_tool_witness :
  shell Stub.env "nvidia-smi" = None /\
  exists fields,
    stub_handle GET_about running =
      Outcome _ _ _ (inr (Response 200 (Json (JObj fields)))) running
        [Popen "nvidia-smi"] /\
    dict_get "nvidia-smi" fields = Some (JStr EmptyString).
Proof.
  split; [reflexivity|].
  apply (about_survives_missing_tool unit unit Stub.CONFIG Stub.predict
           Stub.env running).
  reflexivity.
Defined.

(** *** Further properties on concrete runs *)

Lemma generate_calls_predict_once_witness :
  filter is_predict
    (trace _ _ _ (stub_handle (POST_generate Stub.boom_body) running)) =
    [Predict ["boom"%string] []].
Proof.
  apply (generate_calls_predict_once unit unit Stub.CONFIG Stub.predict Stub.env
           running Stub.boom_body
           {| prompt := "boom"; generation_params := [] |}
           {| model := tt; tokenizer := tt |} running_live); reflexivity.
Defined.

Lemma generate_logs_input_first_witness :
  exists rest,
    trace _ _ _ (stub_handle (POST_generate Stub.good_body) fresh) =
      request_logs {| prompt := "hello"; generation_params := [] |} ++ rest.
Proof.
  apply (generate_logs_input_first unit unit Stub.CONFIG Stub.predict Stub.env
           fresh Stub.good_body fresh_live).
Defined.

Lemma generate_status_classification_witness :
  let resp := Response 500 (Json (error_envelope
                "Out of range float values are not JSON compliant")) in
  (status_code resp = 422 <->
     exists errors, validate_InferenceInput Stub.huge_body = inl errors) /\
  (status_code resp = 200 <->
     exists input pkg text raw,
       validate_InferenceInput Stub.huge_body = inr input /\
       package unit unit running = Some pkg /\
       Stub.predict pkg [prompt input] (generation_params input)
         = inr (text, raw) /\
       forallb PrimFloat.is_finite (map (Numpy.around 2) raw) = true) /\
  (status_code resp = 500 <->
     exists input,
       validate_InferenceInput Stub.huge_body = inr input /\
       (package unit unit running = None \/
        (exists pkg e,
           package unit unit running = Some pkg /\
           Stub.predict pkg [prompt input] (generation_params input) = inl e) \/
        (exists pkg text raw,
           package unit unit running = Some pkg /\
           Stub.predict pkg [prompt input] (generation_params input)
             = inr (text, raw) /\
           forallb PrimFloat.is_finite (map (Numpy.around 2) raw) = false))).
Proof.
  apply (generate_status_classification unit unit Stub.CONFIG Stub.predict
           Stub.env running Stub.huge_body _ running_live).
  reflexivity.
Defined.

Lemma routes_keep_to_their_collaborators_witness :
  popen_calls (trace _ _ _ (stub_handle (POST_generate Stub.good_body) running))
    = 0%nat /\
  predict_calls (trace _ _ _ (stub_handle GET_about running)) = 0%nat /\
  popen_calls (trace _ _ _ (stub_handle GET_about running)) = 1%nat.
Proof.
  apply (routes_keep_to_their_collaborators unit unit Stub.CONFIG Stub.predict
           Stub.env running Stub.good_body running_live).
Defined.

Lemma startup_event_installs_loaded_pair_witness :
  let o := startup_event unit unit Stub.CONFIG Stub.init_causallm running in
  result _ _ _ o = inr tt /\
  package _ _ (app_after _ _ _ o) = Some {| model := tt; tokenizer := tt |} /\
  exception_handlers _ _ (app_after _ _ _ o) = exception_handlers _ _ running /\
  mounts _ _ (app_after _ _ _ o) = mounts _ _ running /\
  user_middleware _ _ (app_after _ _ _ o) = user_middleware _ _ running /\
  filter is_init_causallm (trace _ _ _ o) = [InitCausalLM "llama-7b"] /\
  (live _ _ Stub.env running -> live _ _ Stub.env (app_after _ _ _ o)).
Proof.
  apply (startup_event_installs_loaded_pair unit unit Stub.CONFIG
           Stub.init_causallm Stub.env running tt tt).
  reflexivity.
Defined.


Lemma predict_called_once_per_accepted_request_witness :
  let requests := [POST_generate Stub.boom_body; GET_about;
                   POST_generate Stub.no_prompt_body;
                   POST_generate Stub.good_body] in
  predict_calls (events _ _ (stub_main "0.0.0.0" 8000 requests)) = 2%nat.
Proof.
  intros requests.
  apply (predict_called_once_per_accepted_request unit unit Stub.CONFIG
           Stub.init_causallm Stub.predict Stub.env "0.0.0.0" 8000 requests).
  reflexivity.
Defined.

Lemma about_returns_tool_output_witness :
  shell Stub.gpu_env "nvidia-smi" = Some "GPU 0: A100"%string /\
  exists fields,
    handle unit unit Stub.CONFIG Stub.predict Stub.gpu_env GET_about running =
      Outcome _ _ _ (inr (Response 200 (Json (JObj fields)))) running
        [Popen "nvidia-smi"] /\
    dict_get "nvidia-smi" fields = Some (JStr "GPU 0: A100").
Proof.
  split; [reflexivity|].
  apply (about_returns_tool_output unit unit Stub.CONFIG Stub.predict
           Stub.gpu_env running).
  reflexivity.
Defined.

Lemma about_without_cuda_reports_null_witness :
  exists fields,
    result _ _ _ (stub_handle GET_about fresh)
      = inr (Response 200 (Json (JObj fields))) /\
    dict_get "torch.version.cuda" fields = Some JNull /\
    dict_get "torch.backends.cudnn.version()" fields = Some JNull /\
    List.length fields = 7%nat.
Proof.
  apply (about_without_cuda_reports_null unit unit Stub.CONFIG Stub.predict
           Stub.env fresh); reflexivity.
Defined.
